(** * A shallow embedding of enviroplus_exporter.py

    Sensor values, gauge values and the AQI are Python floats; they are
    modelled as rationals [Q].  The claims below only compare, add, subtract
    and divide these values, so the rational model records the intended
    arithmetic of the source.  Hardware reads are inputs of the routines
    (a value or the exception the driver raises), and the effects of the
    program (gauge updates, histogram observations, log lines, the
    [i2cdetect] subprocess, sleeps, display and network calls) are recorded
    in a trace threaded through a small state-and-exception monad. *)

From Stdlib Require Import QArith Qminmax Qround Lqa Lia List Ascii String ZArith Bool.
Import ListNotations.
Open Scope string_scope.

(** ** Python exceptions that the routines raise or catch *)
Inductive exn : Type :=
| IOError                      (* OSError from the i2c bus or a file *)
| ReadTimeoutError             (* pms5003.ReadTimeoutError *)
| KeyError (key : string)      (* missing key in a dict subscript *)
| TypeError                    (* int() of a non-number *)
| ValueError                   (* raised by str_to_bool *)
| IndexError                   (* list index out of range *)
| TransportError.              (* any exception of requests / influxdb_client *)

(** [except IOError] catches only [IOError]; [except Exception] catches all. *)
Definition is_IOError (e : exn) : bool :=
  match e with IOError => true | _ => false end.

(** A hardware read: the value it returns, or the exception it raises. *)
Inductive reading (A : Type) : Type :=
| ROk (a : A)
| RErr (e : exn).
Arguments ROk {A} a.
Arguments RErr {A} e.

(** ** The prometheus metrics of the module *)
Inductive gauge : Type :=
| TEMPERATURE | PRESSURE | HUMIDITY | OXIDISING | REDUCING | NH3
| LUX | PROXIMITY | PM1 | PM25 | PM10 | AQI.

Inductive hist : Type :=
| OXIDISING_HIST | REDUCING_HIST | NH3_HIST | PM1_HIST | PM25_HIST | PM10_HIST.

Definition gauge_eqb (g1 g2 : gauge) : bool :=
  match g1, g2 with
  | TEMPERATURE, TEMPERATURE | PRESSURE, PRESSURE | HUMIDITY, HUMIDITY
  | OXIDISING, OXIDISING | REDUCING, REDUCING | NH3, NH3 | LUX, LUX
  | PROXIMITY, PROXIMITY | PM1, PM1 | PM25, PM25 | PM10, PM10 | AQI, AQI => true
  | _, _ => false
  end.

Definition hist_eqb (h1 h2 : hist) : bool :=
  match h1, h2 with
  | OXIDISING_HIST, OXIDISING_HIST | REDUCING_HIST, REDUCING_HIST
  | NH3_HIST, NH3_HIST | PM1_HIST, PM1_HIST | PM25_HIST, PM25_HIST
  | PM10_HIST, PM10_HIST => true
  | _, _ => false
  end.

(** An RGB colour tuple. *)
Definition color := (Z * Z * Z)%type.

(** Text handed to [display_text]: a literal, or ["{}".format(n)] of an int. *)
Inductive text : Type :=
| TStr (s : string)
| TInt (n : Z).

(** The observable effects of the program. *)
Inductive event : Type :=
| LogInfo (msg : string)
| LogWarning (msg : string)
| LogError (msg : string)
| Subprocess (args : list string)
| Sleep (secs : Z)
| GaugeSet (g : gauge) (v : Q)
| HistObserve (h : hist) (v : Q)
| DrawRectangle                     (* draw.rectangle(..., (0, 0, 0)) *)
| DispDisplay                       (* disp.display(img) *)
| DrawText (msg : text) (fill : option color)
| InfluxWrite (npoints : nat)
| HttpPost (pin : string).

(** ** The world: the metric registry and the trace of effects *)
Record world : Type := mkWorld {
  gauges : gauge -> Q;               (* current value of each Gauge *)
  hists : hist -> list Q;            (* observations of each Histogram, newest first *)
  trace : list event                 (* effects, newest first *)
}.

(** A freshly created registry: every Gauge is 0.0, no observation. *)
Definition init_world : world :=
  mkWorld (fun _ => 0) (fun _ => []) [].

(** ** The monad: state passing with Python exceptions *)
Inductive outcome (A : Type) : Type :=
| Ret (a : A)
| Exc (e : exn).
Arguments Ret {A} a.
Arguments Exc {A} e.

Definition Py (A : Type) : Type := world -> world * outcome A.

Definition ret {A} (a : A) : Py A := fun w => (w, Ret a).
Definition raise {A} (e : exn) : Py A := fun w => (w, Exc e).
Definition bind {A B} (m : Py A) (k : A -> Py B) : Py B :=
  fun w => match m w with
           | (w', Ret a) => k a w'
           | (w', Exc e) => (w', Exc e)
           end.

Notation "x <- m ;; k" := (bind m (fun x => k))
  (at level 61, m at next level, right associativity).
Notation "m ;;; k" := (bind m (fun _ => k))
  (at level 61, right associativity).

(** [try: body except <handled e>: handler e] *)
Definition try_except {A} (body : Py A) (handled : exn -> bool)
  (handler : exn -> Py A) : Py A :=
  fun w => match body w with
           | (w', Exc e) => if handled e then handler e w' else (w', Exc e)
           | r => r
           end.

Definition emit (ev : event) : Py unit :=
  fun w => (mkWorld (gauges w) (hists w) (ev :: trace w), Ret tt).

(** A hardware read: raise the driver's exception or return its value. *)
Definition read {A} (r : reading A) : Py A :=
  match r with ROk a => ret a | RErr e => raise e end.

(** [GAUGE.set(v)] *)
Definition gauge_set (g : gauge) (v : Q) : Py unit :=
  fun w => (mkWorld (fun g' => if gauge_eqb g g' then v else gauges w g')
                    (hists w) (GaugeSet g v :: trace w), Ret tt).

(** [HIST.observe(v)] *)
Definition hist_observe (h : hist) (v : Q) : Py unit :=
  fun w => (mkWorld (gauges w)
                    (fun h' => if hist_eqb h h' then v :: hists w h else hists w h')
                    (HistObserve h v :: trace w), Ret tt).

(** [GAUGE.collect()[0].samples[0].value] *)
Definition gauge_value (g : gauge) : Py Q := fun w => (w, Ret (gauges w g)).

(** ** Comparisons of Python numbers *)
Definition Qltb (a b : Q) : bool := negb (Qle_bool b a).

(** [int(x)] of a float: truncation toward zero. *)
Definition py_int (q : Q) : Z := Z.quot (Qnum q) (Zpos (Qden q)).

(** ** The AQI band tables (dicts; iteration follows insertion order) *)
Definition AQI_CATEGORIES : list ((Z * Z) * string) :=
  [ ((-1, 50)%Z, "Good");
    ((50, 100)%Z, "Moderate");
    ((100, 150)%Z, "Unhealthy for Sensitive Groups");
    ((150, 200)%Z, "Unhealthy");
    ((200, 300)%Z, "Very Unhealthy");
    ((300, 500)%Z, "Hazardous") ].

Definition AQI_COLORS : list ((Z * Z) * color) :=
  [ ((-1, 50)%Z, (0, 128, 0)%Z);
    ((50, 100)%Z, (255, 255, 0)%Z);
    ((100, 150)%Z, (255, 165, 0)%Z);
    ((150, 200)%Z, (255, 0, 0)%Z);
    ((200, 300)%Z, (128, 0, 128)%Z);
    ((300, 500)%Z, (128, 0, 0)%Z) ].

(** [for limits, x in table.items(): if v > limits[0] and v <= limits[1]:
    return x]; falling off the loop returns [None]. *)
Fixpoint band_lookup {A} (table : list ((Z * Z) * A)) (aqi_value : Q) : option A :=
  match table with
  | [] => None
  | ((lo, hi), x) :: rest =>
      if Qltb (inject_Z lo) aqi_value && Qle_bool aqi_value (inject_Z hi)
      then Some x else band_lookup rest aqi_value
  end.

Definition get_aqi_category (aqi_value : Q) : option string :=
  band_lookup AQI_CATEGORIES aqi_value.

Definition get_aqi_color (aqi_value : Q) : option color :=
  band_lookup AQI_COLORS aqi_value.

(** ** SensorSampler *)

(** [reset_i2c]: probe the bus with [i2cdetect -y 1], then sleep 2 seconds. *)
Definition reset_i2c : Py unit :=
  emit (Subprocess ["i2cdetect"; "-y"; "1"]) ;;; emit (Sleep 2).

(** [get_cpu_temperature]: the thermal zone file holds millidegrees. *)
Definition get_cpu_temperature (r : reading Z) : Py Q :=
  temp <- read r ;; ret (inject_Z temp / 1000).

Definition sum (l : list Q) : Q := fold_left Qplus l 0.

Definition average (l : list Q) : Q := sum l / inject_Z (Z.of_nat (List.length l)).

(** [get_temperature(factor)].  [factor] is [args.factor], a float or
    [None]; [if factor:] is false for [None] and for [0.0].  The two CPU
    readings are the two calls of [get_cpu_temperature]. *)
Definition get_temperature (factor : option Q) (raw : reading Q)
  (cpu_first cpu_next : reading Z) : Py unit :=
  raw_temp <- read raw ;;
  temperature <-
    match factor with
    | Some f =>
        if Qeq_bool f 0 then ret raw_temp
        else
          c0 <- get_cpu_temperature cpu_first ;;
          let cpu_temps := repeat c0 5 in
          cpu_temp <- get_cpu_temperature cpu_next ;;
          let cpu_temps := (tl cpu_temps ++ [cpu_temp])%list in
          let avg_cpu_temp := average cpu_temps in
          ret (raw_temp - ((avg_cpu_temp - raw_temp) / f))
    | None => ret raw_temp
    end ;;
  gauge_set TEMPERATURE temperature.

Definition get_pressure (r : reading Q) : Py unit :=
  try_except
    (pressure <- read r ;; gauge_set PRESSURE pressure)
    is_IOError
    (fun _ => emit (LogError "Could not get pressure readings. Resetting i2c.") ;;;
              reset_i2c).

Definition get_humidity (r : reading Q) : Py unit :=
  try_except
    (humidity <- read r ;; gauge_set HUMIDITY humidity)
    is_IOError
    (fun _ => emit (LogError "Could not get humidity readings. Resetting i2c.") ;;;
              reset_i2c).

(** The result of [gas.read_all()]. *)
Record gas_readings : Type := mkGas {
  oxidising : Q; reducing : Q; nh3 : Q }.

Definition get_gas (r : reading gas_readings) : Py unit :=
  try_except
    (readings <- read r ;;
     gauge_set OXIDISING (oxidising readings) ;;;
     hist_observe OXIDISING_HIST (oxidising readings) ;;;
     gauge_set REDUCING (reducing readings) ;;;
     hist_observe REDUCING_HIST (reducing readings) ;;;
     gauge_set NH3 (nh3 readings) ;;;
     hist_observe NH3_HIST (nh3 readings))
    is_IOError
    (fun _ => emit (LogError "Could not get gas readings. Resetting i2c.") ;;;
              reset_i2c).

Definition get_light (lux_r prox_r : reading Q) : Py unit :=
  try_except
    (lux <- read lux_r ;;
     prox <- read prox_r ;;
     gauge_set LUX lux ;;;
     gauge_set PROXIMITY prox)
    is_IOError
    (fun _ => emit (LogError "Could not get lux and proximity readings. Resetting i2c.") ;;;
              reset_i2c).

(** The frame read from the PMS5003; [pm_ug_per_m3(1.0)], [(2.5)], [(10)]. *)
Record pms_data : Type := mkPms {
  pm_1 : Q; pm_2_5 : Q; pm_10 : Q }.

(** The pollutants passed to [aqi.to_aqi]. *)
Inductive pollutant : Type := POLLUTANT_PM25 | POLLUTANT_PM10.

Section Sampler.

(** [aqi.to_aqi] of the python-aqi package: an external EPA breakpoint
    algorithm, kept abstract. *)
Variable to_aqi : list (pollutant * Q) -> Q.

(** [try: pms_data = pms5003.read() except pmsReadTimeoutError: ...
    except IOError: ... else: ...] *)
Definition get_particulates (r : reading pms_data) : Py unit :=
  match r with
  | RErr ReadTimeoutError => emit (LogWarning "Failed to read PMS5003")
  | RErr IOError =>
      emit (LogError "Could not get particulate matter readings. Resetting i2c.") ;;;
      reset_i2c
  | RErr e => raise e
  | ROk pms =>
      gauge_set PM1 (pm_1 pms) ;;;
      gauge_set PM25 (pm_2_5 pms) ;;;
      gauge_set PM10 (pm_10 pms) ;;;
      let pm25_value := if Qltb (500.4) (pm_2_5 pms) then 500.4 else pm_2_5 pms in
      let pm10_value := if Qltb 604 (pm_10 pms) then 604 else pm_10 pms in
      gauge_set AQI (to_aqi [(POLLUTANT_PM25, pm25_value); (POLLUTANT_PM10, pm10_value)]) ;;;
      hist_observe PM1_HIST (pm_1 pms) ;;;
      hist_observe PM25_HIST (pm_2_5 pms - pm_1 pms) ;;;
      hist_observe PM10_HIST (pm_10 pms - pm_2_5 pms)
  end.

(** The hardware readings one iteration of the main loop consumes. *)
Record cycle_input : Type := mkCycle {
  in_temperature : reading Q;
  in_cpu_first : reading Z;
  in_cpu_next : reading Z;
  in_pressure : reading Q;
  in_humidity : reading Q;
  in_lux : reading Q;
  in_proximity : reading Q;
  in_gas : reading gas_readings;
  in_pms : reading pms_data }.

(** One iteration of the [while True] loop of [__main__]; the [DEBUG] log
    line is left out (it only reads the registry). *)
Definition main_cycle (factor : option Q) (enviro : bool) (c : cycle_input) : Py unit :=
  get_temperature factor (in_temperature c) (in_cpu_first c) (in_cpu_next c) ;;;
  get_pressure (in_pressure c) ;;;
  get_humidity (in_humidity c) ;;;
  get_light (in_lux c) (in_proximity c) ;;;
  if negb enviro then get_gas (in_gas c) ;;; get_particulates (in_pms c)
  else ret tt.

(** The first [length cs] iterations of the main loop; an exception that
    escapes an iteration escapes the loop and ends the main thread. *)
Fixpoint main_loop (factor : option Q) (enviro : bool) (cs : list cycle_input) : Py unit :=
  match cs with
  | [] => ret tt
  | c :: rest => main_cycle factor enviro c ;;; main_loop factor enviro rest
  end.

End Sampler.

(** ** SnapshotCollector *)

(** The Python values stored in the snapshot dict. *)
Inductive pyval : Type :=
| PyFloat (q : Q)
| PyStr (s : string)
| PyNone.

Definition opt_str (o : option string) : pyval :=
  match o with Some s => PyStr s | None => PyNone end.

(** A dict as an association list in insertion order. *)
Definition pydict := list (string * pyval).

(** [d[k]]: the value of [k], or [KeyError(k)]. *)
Fixpoint getitem (d : pydict) (k : string) : Py pyval :=
  match d with
  | [] => raise (KeyError k)
  | (k', v) :: rest => if String.eqb k k' then ret v else getitem rest k
  end.

Definition collect_all_data : Py pydict :=
  temperature <- gauge_value TEMPERATURE ;;
  humidity <- gauge_value HUMIDITY ;;
  pressure <- gauge_value PRESSURE ;;
  ox <- gauge_value OXIDISING ;;
  red <- gauge_value REDUCING ;;
  nh3v <- gauge_value NH3 ;;
  lux <- gauge_value LUX ;;
  prox <- gauge_value PROXIMITY ;;
  p0 <- gauge_value PM1 ;;
  p1 <- gauge_value PM10 ;;
  p2 <- gauge_value PM25 ;;
  aqi_value <- gauge_value AQI ;;
  aqi_again <- gauge_value AQI ;;
  ret [ ("BME280_temperature", PyFloat temperature);
        ("BME280_humidity", PyFloat humidity);
        ("BME280_pressure", PyFloat pressure);
        ("MICS6814_oxidising", PyFloat ox);
        ("MICS6814_reducing", PyFloat red);
        ("MICS6814_nh3", PyFloat nh3v);
        ("LTR559_lux", PyFloat lux);
        ("LTR559_proximity", PyFloat prox);
        ("PMS_P0", PyFloat p0);
        ("PMS_P1", PyFloat p1);
        ("PMS_P2", PyFloat p2);
        ("AQI_value", PyFloat aqi_value);
        ("AQI_category", opt_str (get_aqi_category aqi_again)) ].

(** The registry seen by a publisher thread at the start of an iteration:
    the sampling loop runs concurrently and may have updated every gauge. *)
Definition observe_registry (r : gauge -> Q) : Py unit :=
  fun w => (mkWorld r (hists w) (trace w), Ret tt).

(** ** DisplayPublisher *)

Definition DISPLAY_TIME_BETWEEN_UPDATES : Z := 10.

(** [display_text(message, text_color)]: clear, show, draw the text, show. *)
Definition display_text (message : text) (text_color : option color) : Py unit :=
  emit DrawRectangle ;;;
  emit DispDisplay ;;;
  emit (DrawText message text_color) ;;;
  emit DispDisplay.

(** [int(v)] of a snapshot value. *)
Definition py_int_val (v : pyval) : Py Z :=
  match v with PyFloat q => ret (py_int q) | _ => raise TypeError end.

(** One iteration of the [while True] loop of [refresh_display]; the
    argument and the result are [previous_aqi]. *)
Definition display_iteration (previous_aqi : Z) : Py Z :=
  emit (Sleep DISPLAY_TIME_BETWEEN_UPDATES) ;;;
  sensor_data <- collect_all_data ;;
  v <- getitem sensor_data "AQI_value" ;;
  n <- py_int_val v ;;
  if negb (Z.eqb n previous_aqi) then
    v' <- getitem sensor_data "AQI_value" ;;
    previous_aqi' <- py_int_val v' ;;
    display_text (TInt previous_aqi') (get_aqi_color (inject_Z previous_aqi')) ;;;
    ret previous_aqi'
  else ret previous_aqi.

(** Iterations of the display loop, one per registry seen. *)
Fixpoint display_loop (previous_aqi : Z) (regs : list (gauge -> Q)) : Py Z :=
  match regs with
  | [] => ret previous_aqi
  | r :: rest =>
      observe_registry r ;;;
      p <- display_iteration previous_aqi ;;
      display_loop p rest
  end.

Definition refresh_display (regs : list (gauge -> Q)) : Py Z :=
  display_text (TStr "Start") (Some (255, 255, 255)%Z) ;;;
  display_loop (-1) regs.

(** ** Push publishers *)

Definition INFLUXDB_TIME_BETWEEN_POSTS : Z := 5.
Definition LUFTDATEN_TIME_BETWEEN_POSTS : Z := 30.

Section Publishers.

Variable DEBUG : bool.

(** One iteration of [post_to_influxdb]; [transport] is what
    [influxdb_api.write] does: return, or raise. *)
Definition influx_iteration (transport : reading unit) : Py unit :=
  emit (Sleep INFLUXDB_TIME_BETWEEN_POSTS) ;;;
  sensor_data <- collect_all_data ;;
  try_except
    (emit (InfluxWrite (List.length sensor_data)) ;;;
     read transport ;;;
     if DEBUG then emit (LogInfo "InfluxDB response: OK") else ret tt)
    (fun _ => true)
    (fun _ => emit (LogWarning "Exception sending to InfluxDB")).

Fixpoint influx_loop (inputs : list ((gauge -> Q) * reading unit)) : Py unit :=
  match inputs with
  | [] => ret tt
  | (r, transport) :: rest =>
      observe_registry r ;;; influx_iteration transport ;;; influx_loop rest
  end.

(** One iteration of [post_to_luftdaten]; [resp1] and [resp11] are the
    two [requests.post] calls: [response.ok], or the exception raised.
    The values sent are not modelled, only the calls. *)
Definition luftdaten_iteration (resp1 resp11 : reading bool) : Py unit :=
  emit (Sleep LUFTDATEN_TIME_BETWEEN_POSTS) ;;;
  sensor_data <- collect_all_data ;;
  p2 <- getitem sensor_data "pm25" ;;
  p1 <- getitem sensor_data "pm10" ;;
  p0 <- getitem sensor_data "pm1" ;;
  t <- getitem sensor_data "temperature" ;;
  p <- getitem sensor_data "pressure" ;;
  h <- getitem sensor_data "humidity" ;;
  try_except
    (emit (HttpPost "1") ;;;
     ok1 <- read resp1 ;;
     emit (HttpPost "11") ;;;
     ok11 <- read resp11 ;;
     if ok1 && ok11 then
       (if DEBUG then emit (LogInfo "Luftdaten response: OK") else ret tt)
     else emit (LogWarning "Luftdaten response: Failed"))
    (fun _ => true)
    (fun _ => emit (LogWarning "Exception sending to Luftdaten")).

Fixpoint luftdaten_loop (inputs : list ((gauge -> Q) * reading bool * reading bool)) : Py unit :=
  match inputs with
  | [] => ret tt
  | (r, resp1, resp11) :: rest =>
      observe_registry r ;;; luftdaten_iteration resp1 resp11 ;;; luftdaten_loop rest
  end.

End Publishers.

(** ** Startup helpers *)

(** Strings are byte strings here; the helpers below act on ASCII text as
    Python's [str] methods do. *)




(** [s.split(sep)] for a one-character separator: the pieces between the
    separators, empty pieces included. *)
Fixpoint split_aux (sep : Ascii.ascii) (s : string) (cur : list Ascii.ascii) : list string :=
  match s with
  | EmptyString => [string_of_list_ascii (rev cur)]
  | String c rest =>
      if Ascii.eqb c sep then string_of_list_ascii (rev cur) :: split_aux sep rest []
      else split_aux sep rest (c :: cur)
  end.

Definition str_split (sep : Ascii.ascii) (s : string) : list string := split_aux sep s [].

(** The characters [str.isspace()] holds for in ASCII: \t \n \x0b \x0c \r,
    \x1c to \x1f, and the space. *)
Definition is_space (c : Ascii.ascii) : bool :=
  let n := Ascii.nat_of_ascii c in
  ((9 <=? n)%nat && (n <=? 13)%nat) || ((28 <=? n)%nat && (n <=? 32)%nat).

Fixpoint lstrip_list (l : list Ascii.ascii) : list Ascii.ascii :=
  match l with
  | [] => []
  | c :: rest => if is_space c then lstrip_list rest else l
  end.

(** [s.strip()] *)
Definition strip (s : string) : string :=
  string_of_list_ascii
    (rev (lstrip_list (rev (lstrip_list (list_ascii_of_string s))))).

(** [lst[i]] *)
Definition list_getitem {A} (l : list A) (i : nat) : Py A :=
  match nth_error l i with Some x => ret x | None => raise IndexError end.

(** [get_serial_number()]: [lines] are the lines of /proc/cpuinfo, each
    with its line terminator; falling off the loop returns [None]. *)
Fixpoint serial_from_lines (lines : list string) : Py (option string) :=
  match lines with
  | [] => ret None
  | line :: rest =>
      if String.eqb (substring 0 6 line) "Serial" then
        field <- list_getitem (str_split ":"%char line) 1 ;;
        ret (Some (strip field))
      else serial_from_lines rest
  end.

Definition get_serial_number (cpuinfo : reading (list string)) : Py (option string) :=
  lines <- read cpuinfo ;; serial_from_lines lines.

(** ** Fixtures and reference definitions used by the properties *)

(** The keys of a snapshot: the full, fixed channel set. *)
Definition snapshot_keys : list string :=
  [ "BME280_temperature"; "BME280_humidity"; "BME280_pressure";
    "MICS6814_oxidising"; "MICS6814_reducing"; "MICS6814_nh3";
    "LTR559_lux"; "LTR559_proximity"; "PMS_P0"; "PMS_P1"; "PMS_P2";
    "AQI_value"; "AQI_category" ].

(** The effects of one bus reset, newest first. *)
Definition reset_events (msg : string) : list event :=
  [Sleep 2; Subprocess ["i2cdetect"; "-y"; "1"]; LogError msg].

(** Two consecutive calls of [get_temperature] (factor 2, raw 25), reading
    40 and 50 degrees on the CPU in the first call, 60 and 70 in the second. *)
Definition two_temperature_calls (w : world) : world :=
  fst (get_temperature (Some 2) (ROk 25) (ROk 60000%Z) (ROk 70000%Z)
         (fst (get_temperature (Some 2) (ROk 25) (ROk 40000%Z) (ROk 50000%Z) w))).

(** An iteration of the main loop whose temperature read fails on the bus. *)
Definition faulty_cycle : cycle_input :=
  mkCycle (RErr IOError) (ROk 50000%Z) (ROk 50000%Z) (ROk 1013) (ROk 40)
          (ROk 100) (ROk 0) (ROk (mkGas 20000 300000 100000)) (ROk (mkPms 1 2 3)).

(** The display effects of one clear-and-draw of [n] in the colour of its
    band, newest first. *)
Definition redraw_events (n : Z) : list event :=
  [DispDisplay; DrawText (TInt n) (get_aqi_color (inject_Z n)); DispDisplay; DrawRectangle].

(** The display policy as the spec words it: every 10 seconds take a
    snapshot; clear and draw its truncated AQI value in its band's colour
    exactly when that value differs from the one shown at the last redraw
    ([None] before the first one).  Returns the events (newest first) and
    the value last shown. *)
Fixpoint display_policy (shown : option Z) (regs : list (gauge -> Q))
  (acc : list event) : list event * option Z :=
  match regs with
  | [] => (acc, shown)
  | r :: rest =>
      let n := py_int (r AQI) in
      let unchanged := match shown with Some m => Z.eqb n m | None => false end in
      if unchanged then display_policy shown rest (Sleep 10 :: acc)
      else display_policy (Some n) rest (redraw_events n ++ Sleep 10 :: acc)
  end.

(** The events of [display_text("Start", (255, 255, 255))], newest first. *)
Definition start_events : list event :=
  [DispDisplay; DrawText (TStr "Start") (Some (255, 255, 255)%Z); DispDisplay; DrawRectangle].

(** A registry whose AQI gauge holds [v], all other gauges 0. *)
Definition registry_with_aqi (v : Q) : gauge -> Q :=
  fun g => match g with AQI => v | _ => 0 end.

(** The number of [influxdb_api.write] calls in a trace. *)
Fixpoint count_writes (tr : list event) : nat :=
  match tr with
  | [] => O
  | InfluxWrite _ :: rest => S (count_writes rest)
  | _ :: rest => count_writes rest
  end.

(** A read that succeeds or raises an exception [P] accepts. *)
Definition reading_ok {A} (P : exn -> bool) (r : reading A) : bool :=
  match r with ROk _ => true | RErr e => P e end.




(** A tab and a line feed, as one-character strings. *)
Definition TAB : string := String (Ascii.ascii_of_nat 9) EmptyString.
Definition NL : string := String (Ascii.ascii_of_nat 10) EmptyString.

(** Lines of a Raspberry Pi /proc/cpuinfo. *)
Definition cpuinfo_head : list string :=
  ["processor" ++ TAB ++ ": 0" ++ NL; "Hardware" ++ TAB ++ ": BCM2835" ++ NL].
Definition cpuinfo_serial_line : string :=
  "Serial" ++ TAB ++ TAB ++ ": 10000000abcdef01" ++ NL.

(** Whether character [c] occurs in [s]. *)
Fixpoint str_has (c : Ascii.ascii) (s : string) : bool :=
  match s with
  | EmptyString => false
  | String c' rest => Ascii.eqb c' c || str_has c rest
  end.

(** * Properties *)

Lemma Qltb_true a b : Qltb a b = true <-> a < b.
Proof.
  unfold Qltb. rewrite negb_true_iff, <- not_true_iff_false, Qle_bool_iff.
  split; [apply Qnot_le_lt | apply Qlt_not_le].
Qed.

(** Turn every boolean comparison of the goal into a case split on the
    corresponding order fact. *)
Ltac split_comparisons :=
  repeat match goal with
  | |- context [Qle_bool ?a ?b] =>
      let E := fresh "E" in
      destruct (Qle_bool a b) eqn:E;
      [apply Qle_bool_iff in E | apply not_true_iff_false in E;
                                 rewrite Qle_bool_iff in E]
  end.

Ltac band_cases :=
  intros;
  unfold get_aqi_category, get_aqi_color, band_lookup, AQI_CATEGORIES,
    AQI_COLORS, Qltb in *;
  split_comparisons; unfold inject_Z in *; simpl;
  first [ split; reflexivity | reflexivity | exfalso; lra ].

Lemma band_good v : -1 < v <= 50 ->
  get_aqi_category v = Some "Good" /\ get_aqi_color v = Some (0, 128, 0)%Z.
Proof. band_cases. Qed.

Lemma band_moderate v : 50 < v <= 100 ->
  get_aqi_category v = Some "Moderate" /\ get_aqi_color v = Some (255, 255, 0)%Z.
Proof. band_cases. Qed.

Lemma band_usg v : 100 < v <= 150 ->
  get_aqi_category v = Some "Unhealthy for Sensitive Groups" /\
  get_aqi_color v = Some (255, 165, 0)%Z.
Proof. band_cases. Qed.

Lemma band_unhealthy v : 150 < v <= 200 ->
  get_aqi_category v = Some "Unhealthy" /\ get_aqi_color v = Some (255, 0, 0)%Z.
Proof. band_cases. Qed.

Lemma band_very_unhealthy v : 200 < v <= 300 ->
  get_aqi_category v = Some "Very Unhealthy" /\ get_aqi_color v = Some (128, 0, 128)%Z.
Proof. band_cases. Qed.

Lemma band_hazardous v : 300 < v <= 500 ->
  get_aqi_category v = Some "Hazardous" /\ get_aqi_color v = Some (128, 0, 0)%Z.
Proof. band_cases. Qed.

Lemma band_outside v : 500 < v \/ v <= -1 ->
  get_aqi_category v = None /\ get_aqi_color v = None.
Proof. intros [H | H]; band_cases. Qed.

(** C3: on (-1, 500] the category and colour are those of the unique band,
    half-open and upper-inclusive, that contains the value: (-1,50] Good /
    green, (50,100] Moderate / yellow, (100,150] Unhealthy for Sensitive
    Groups / orange, (150,200] Unhealthy / red, (200,300] Very Unhealthy /
    purple, (300,500] Hazardous / dark red; 50 is Good and 50.01 Moderate. *)
Theorem aqi_category_color_bands (v : Q) :
  (-1 < v <= 50 ->
     get_aqi_category v = Some "Good" /\ get_aqi_color v = Some (0, 128, 0)%Z) /\
  (50 < v <= 100 ->
     get_aqi_category v = Some "Moderate" /\ get_aqi_color v = Some (255, 255, 0)%Z) /\
  (100 < v <= 150 ->
     get_aqi_category v = Some "Unhealthy for Sensitive Groups" /\
     get_aqi_color v = Some (255, 165, 0)%Z) /\
  (150 < v <= 200 ->
     get_aqi_category v = Some "Unhealthy" /\ get_aqi_color v = Some (255, 0, 0)%Z) /\
  (200 < v <= 300 ->
     get_aqi_category v = Some "Very Unhealthy" /\ get_aqi_color v = Some (128, 0, 128)%Z) /\
  (300 < v <= 500 ->
     get_aqi_category v = Some "Hazardous" /\ get_aqi_color v = Some (128, 0, 0)%Z) /\
  get_aqi_category 50 = Some "Good" /\
  get_aqi_category (5001 # 100) = Some "Moderate".
Proof.
  repeat split;
    first [ apply band_good | apply band_moderate | apply band_usg
          | apply band_unhealthy | apply band_very_unhealthy
          | apply band_hazardous | reflexivity | idtac ]; auto.
Qed.

Lemma aqi_category_color_bands_witness :
  get_aqi_category 75 = Some "Moderate" /\ get_aqi_color 75 = Some (255, 255, 0)%Z.
Proof.
  apply (proj1 (proj2 (aqi_category_color_bands 75))). split; vm_compute; [reflexivity | discriminate].
Defined.

(** ** Temperature compensation *)


(** With no factor, or a zero factor, the raw reading is written unchanged. *)
Lemma get_temperature_passthrough factor raw c0 c1 w :
  (factor = None \/ exists f, factor = Some f /\ f == 0) ->
  let (w', o) := get_temperature factor (ROk raw) c0 c1 w in
  o = Ret tt /\ gauges w' TEMPERATURE = raw.
Proof.
  intros [-> | [f [-> Hf]]]; unfold get_temperature, bind, read, ret.
  - simpl. split; reflexivity.
  - apply Qeq_bool_iff in Hf. rewrite Hf. simpl. split; reflexivity.
Qed.

(** The worked example: factor 2, raw 25, CPU readings averaging 35. *)
Lemma get_temperature_example w :
  gauges (fst (get_temperature (Some 2) (ROk 25) (ROk 35000%Z) (ROk 35000%Z) w))
    TEMPERATURE == 20.
Proof. vm_compute. reflexivity. Qed.

(** C4 (code bug): the smoothing window is a local list re-seeded with five
    copies of a fresh CPU reading on every call, so it never holds the five
    most recent samples across calls.  After calls reading 40, 50 and then
    60, 70 degrees (raw 25, factor 2), the written temperature is
    25 - (62 - 25) / 2 = 6.5, the average of [60; 60; 60; 60; 70]; a rolling
    window seeded once and slid by one sample per call would hold
    [40; 40; 40; 50; 60] (average 46, temperature 14.5). *)
Theorem get_temperature_window_reseeded (w : world) :
  gauges (two_temperature_calls w) TEMPERATURE == 13 # 2 /\
  ~ gauges (two_temperature_calls w) TEMPERATURE == 29 # 2.
Proof.
  unfold two_temperature_calls. vm_compute. split; [reflexivity | discriminate].
Qed.

(** ** Particulates *)

Section Particulates.

Variable to_aqi : list (pollutant * Q) -> Q.

(** C5: on a successful read the PM1, PM2.5 and PM10 gauges get the raw
    readings, and the index algorithm receives PM2.5 saturated at 500.4 and
    PM10 saturated at 604; pm2.5 = 600, pm10 = 700 are presented as 500.4
    and 604. *)
Theorem get_particulates_clamp (pms : pms_data) (w : world) :
  (let w' := fst (get_particulates to_aqi (ROk pms) w) in
   gauges w' PM1 = pm_1 pms /\
   gauges w' PM25 = pm_2_5 pms /\
   gauges w' PM10 = pm_10 pms /\
   exists pm25_value pm10_value,
     gauges w' AQI = to_aqi [(POLLUTANT_PM25, pm25_value); (POLLUTANT_PM10, pm10_value)] /\
     pm25_value == Qmin (pm_2_5 pms) (5004 # 10) /\
     pm10_value == Qmin (pm_10 pms) 604) /\
  (let w' := fst (get_particulates to_aqi (ROk (mkPms 10 600 700)) w) in
   gauges w' PM25 = 600 /\ gauges w' PM10 = 700 /\
   gauges w' AQI = to_aqi [(POLLUTANT_PM25, 500.4); (POLLUTANT_PM10, 604)]).
Proof.
  split.
  - simpl. repeat split.
    unfold Qltb.
    eexists; eexists; split; [reflexivity |].
    split.
    + destruct (Qle_bool (pm_2_5 pms) 500.4) eqn:E; simpl.
      * apply Qle_bool_iff in E. rewrite Q.min_l by exact E. reflexivity.
      * apply not_true_iff_false in E. rewrite Qle_bool_iff in E.
        apply Qnot_le_lt, Qlt_le_weak in E. rewrite Q.min_r by exact E. reflexivity.
    + destruct (Qle_bool (pm_10 pms) 604) eqn:E; simpl.
      * apply Qle_bool_iff in E. rewrite Q.min_l by exact E. reflexivity.
      * apply not_true_iff_false in E. rewrite Qle_bool_iff in E.
        apply Qnot_le_lt, Qlt_le_weak in E. rewrite Q.min_r by exact E. reflexivity.
  - vm_compute. repeat split.
Qed.

(** C6: a successful read observes PM1 on the PM1 histogram, PM2.5 - PM1 on
    the PM2.5 histogram and PM10 - PM2.5 on the PM10 histogram; for 10, 15
    and 22 the observations are 10, 5 and 7. *)
Theorem get_particulates_histograms (pms : pms_data) (w : world) :
  (let w' := fst (get_particulates to_aqi (ROk pms) w) in
   hists w' PM1_HIST = pm_1 pms :: hists w PM1_HIST /\
   hists w' PM25_HIST = (pm_2_5 pms - pm_1 pms) :: hists w PM25_HIST /\
   hists w' PM10_HIST = (pm_10 pms - pm_2_5 pms) :: hists w PM10_HIST) /\
  (let w' := fst (get_particulates to_aqi (ROk (mkPms 10 15 22)) w) in
   hd 0 (hists w' PM1_HIST) == 10 /\
   hd 0 (hists w' PM25_HIST) == 5 /\
   hd 0 (hists w' PM10_HIST) == 7).
Proof.
  split.
  - simpl. repeat split.
  - vm_compute. repeat split.
Qed.

(** C8: a read timeout of the PMS5003 logs one warning and returns; the
    registry (gauges and histograms) is unchanged and no bus reset is made. *)
Theorem get_particulates_timeout (w : world) :
  get_particulates to_aqi (RErr ReadTimeoutError) w =
    (mkWorld (gauges w) (hists w) (LogWarning "Failed to read PMS5003" :: trace w),
     Ret tt).
Proof. reflexivity. Qed.

End Particulates.

(** ** Bus faults in the sampling loop *)

Lemma get_pressure_ioerror w :
  get_pressure (RErr IOError) w =
    (mkWorld (gauges w) (hists w)
       (reset_events "Could not get pressure readings. Resetting i2c." ++ trace w),
     Ret tt).
Proof. reflexivity. Qed.

Lemma get_humidity_ioerror w :
  get_humidity (RErr IOError) w =
    (mkWorld (gauges w) (hists w)
       (reset_events "Could not get humidity readings. Resetting i2c." ++ trace w),
     Ret tt).
Proof. reflexivity. Qed.

Lemma get_gas_ioerror w :
  get_gas (RErr IOError) w =
    (mkWorld (gauges w) (hists w)
       (reset_events "Could not get gas readings. Resetting i2c." ++ trace w),
     Ret tt).
Proof. reflexivity. Qed.

Lemma get_light_ioerror lux_r prox_r w :
  lux_r = RErr IOError \/ (exists lux, lux_r = ROk lux /\ prox_r = RErr IOError) ->
  get_light lux_r prox_r w =
    (mkWorld (gauges w) (hists w)
       (reset_events "Could not get lux and proximity readings. Resetting i2c." ++ trace w),
     Ret tt).
Proof. intros [-> | [lux [-> ->]]]; reflexivity. Qed.

(** [get_temperature] has no handler: an I/O error of the weather sensor
    leaves the routine as an exception, with no effect. *)
Lemma get_temperature_ioerror factor c0 c1 w :
  get_temperature factor (RErr IOError) c0 c1 w = (w, Exc IOError).
Proof. reflexivity. Qed.

(** C1 (code bug): unlike pressure, humidity, gas and light, an I/O error
    while reading the temperature is not caught: no bus reset happens, the
    exception leaves the iteration and ends the sampling loop, whatever
    the remaining iterations would read. *)
Theorem main_loop_temperature_ioerror_escapes to_aqi factor enviro
  (c : cycle_input) (rest : list cycle_input) (w : world) :
  in_temperature c = RErr IOError ->
  main_loop to_aqi factor enviro (c :: rest) w = (w, Exc IOError).
Proof.
  intros H. simpl. unfold main_cycle, bind at 1. simpl.
  unfold bind at 1. rewrite H. reflexivity.
Qed.

(** ** Snapshots *)

(** C7: [collect_all_data] always returns, leaves the world unchanged, and
    its dict has exactly the fixed key set; taken on a fresh registry every
    value is 0.0 and the category is the one of 0, "Good". *)
Theorem collect_all_data_total (w : world) :
  (exists d, collect_all_data w = (w, Ret d) /\ map fst d = snapshot_keys) /\
  collect_all_data init_world =
    (init_world,
     Ret [ ("BME280_temperature", PyFloat 0); ("BME280_humidity", PyFloat 0);
           ("BME280_pressure", PyFloat 0); ("MICS6814_oxidising", PyFloat 0);
           ("MICS6814_reducing", PyFloat 0); ("MICS6814_nh3", PyFloat 0);
           ("LTR559_lux", PyFloat 0); ("LTR559_proximity", PyFloat 0);
           ("PMS_P0", PyFloat 0); ("PMS_P1", PyFloat 0); ("PMS_P2", PyFloat 0);
           ("AQI_value", PyFloat 0); ("AQI_category", PyStr "Good") ]).
Proof.
  split.
  - eexists. split; reflexivity.
  - reflexivity.
Qed.

Lemma main_loop_temperature_ioerror_escapes_witness :
  in_temperature faulty_cycle = RErr IOError /\
  main_loop (fun _ => 0) None false [faulty_cycle] init_world = (init_world, Exc IOError).
Proof.
  split; [reflexivity |].
  apply main_loop_temperature_ioerror_escapes. reflexivity.
Defined.

(** ** The display loop *)

Lemma display_iteration_eq previous_aqi w :
  display_iteration previous_aqi w =
    let n := py_int (gauges w AQI) in
    if Z.eqb n previous_aqi
    then (mkWorld (gauges w) (hists w) (Sleep 10 :: trace w), Ret previous_aqi)
    else (mkWorld (gauges w) (hists w) (redraw_events n ++ Sleep 10 :: trace w), Ret n).
Proof.
  unfold display_iteration. cbn.
  destruct (Z.eqb (py_int (gauges w AQI)) previous_aqi); reflexivity.
Qed.

Lemma py_int_nonneg q : -1 < q -> (0 <= py_int q)%Z.
Proof.
  destruct q as [n d]. unfold Qlt, py_int. simpl. intros H.
  destruct (Z.le_gt_cases 0 n) as [Hn | Hn].
  - apply Z.quot_pos; lia.
  - replace n with (- (- n))%Z by lia.
    rewrite Z.quot_opp_l by lia. rewrite Z.quot_small; lia.
Qed.

Lemma display_loop_policy regs : forall shown previous_aqi w,
  (forall r, In r regs -> -1 < r AQI) ->
  previous_aqi = match shown with Some m => m | None => (-1)%Z end ->
  let (w', o) := display_loop previous_aqi regs w in
  trace w' = fst (display_policy shown regs (trace w)) /\
  o = Ret (match snd (display_policy shown regs (trace w)) with
           | Some m => m | None => (-1)%Z end).
Proof.
  induction regs as [| r rest IH]; intros shown previous_aqi w Hregs Hprev.
  - subst. simpl. split; reflexivity.
  - simpl display_loop. unfold bind at 1. unfold observe_registry. cbv beta iota.
    unfold bind at 1. rewrite display_iteration_eq. cbv zeta. simpl gauges.
    simpl display_policy.
    assert (Hn : (0 <= py_int (r AQI))%Z) by (apply py_int_nonneg, Hregs; left; reflexivity).
    assert (Hrest : forall r', In r' rest -> -1 < r' AQI) by (intros; apply Hregs; right; assumption).
    destruct shown as [m |]; subst previous_aqi.
    + destruct (Z.eqb (py_int (r AQI)) m) eqn:E; simpl.
      * apply (IH (Some m) m); auto.
      * apply (IH (Some (py_int (r AQI)))); auto.
    + replace (Z.eqb (py_int (r AQI)) (-1)) with false by (symmetry; apply Z.eqb_neq; lia).
      simpl. apply (IH (Some (py_int (r AQI)))); auto.
Qed.

(** C9: after showing "Start", each 10-second iteration of the display
    loop takes a snapshot and clears and draws the truncated AQI value, in
    the colour of that value's band, exactly when it differs from the value
    shown at the last redraw; otherwise it only sleeps.  The AQI values are
    those the index takes, above -1. *)
Theorem refresh_display_redraws_on_change (regs : list (gauge -> Q)) (w : world) :
  (forall r, In r regs -> -1 < r AQI) ->
  trace (fst (refresh_display regs w)) =
    fst (display_policy None regs (start_events ++ trace w)).
Proof.
  intros Hregs. unfold refresh_display.
  unfold bind at 1. simpl.
  pose proof (display_loop_policy regs None (-1)
    (mkWorld (gauges w) (hists w) (start_events ++ trace w)) Hregs eq_refl) as H.
  destruct (display_loop (-1) regs _) as [w' o]. simpl. apply H.
Qed.

Lemma refresh_display_redraws_on_change_witness :
  (forall r, In r [registry_with_aqi 42; registry_with_aqi (857 # 20);
                   registry_with_aqi 60] -> -1 < r AQI) /\
  trace (fst (refresh_display [registry_with_aqi 42; registry_with_aqi (857 # 20);
                               registry_with_aqi 60] init_world)) =
    (redraw_events 60 ++ [Sleep 10; Sleep 10] ++ redraw_events 42 ++ [Sleep 10] ++
    start_events)%list.
Proof.
  assert (H : forall r, In r [registry_with_aqi 42; registry_with_aqi (857 # 20);
                              registry_with_aqi 60] -> -1 < r AQI).
  { intros r [<- | [<- | [<- | []]]]; vm_compute; reflexivity. }
  split; [exact H |].
  rewrite (refresh_display_redraws_on_change _ init_world H). vm_compute. reflexivity.
Defined.

(** ** Values outside the six bands *)

Lemma color_in_range q : -1 < q <= 500 -> get_aqi_color q <> None.
Proof.
  intros. unfold get_aqi_color, band_lookup, AQI_COLORS, Qltb in *.
  split_comparisons; unfold inject_Z in *; simpl;
    first [ discriminate | exfalso; lra ].
Qed.

Lemma color_none_iff q : get_aqi_color q = None <-> 500 < q \/ q <= -1.
Proof.
  split; intros H.
  - destruct (Qlt_le_dec 500 q) as [H1 | H1]; [left; exact H1 |].
    destruct (Qlt_le_dec (-1) q) as [H2 | H2]; [| right; exact H2].
    exfalso. exact (color_in_range q (conj H2 H1) H).
  - apply band_outside, H.
Qed.

(** The claim that a redraw at a value above 500 passes [None] as colour
    fails: at 500.5 the loop draws the truncated value 500 in dark red. *)
Lemma aqi_out_of_range_display_counterexample :
  500 < 1001 # 2 /\
  In (DrawText (TInt 500) (Some (128, 0, 0)%Z))
     (trace (fst (display_iteration 0
        (mkWorld (registry_with_aqi (1001 # 2)) (fun _ => []) [])))) /\
  ~ In (DrawText (TInt 500) None)
     (trace (fst (display_iteration 0
        (mkWorld (registry_with_aqi (1001 # 2)) (fun _ => []) [])))).
Proof.
  vm_compute. split; [reflexivity |]. split.
  - right. left. reflexivity.
  - intros H. repeat (destruct H as [H | H]; [discriminate H |]). destruct H.
Qed.

(** C10 (amended): a value above 500 or at most -1 falls through all six
    bands: [get_aqi_category] and [get_aqi_color] return [None] and a
    snapshot taken at that value carries [None] as its category.  The
    display redraws with the colour of the truncated value [int(v)], which
    is [None] exactly when [int(v)] is above 500 or at most -1. *)
Theorem aqi_out_of_range (v : Q) (previous_aqi : Z) (w : world) :
  500 < v \/ v <= -1 ->
  gauges w AQI = v ->
  get_aqi_category v = None /\ get_aqi_color v = None /\
  (exists d, collect_all_data w = (w, Ret d) /\
             getitem d "AQI_category" w = (w, Ret PyNone)) /\
  (py_int v <> previous_aqi ->
   trace (fst (display_iteration previous_aqi w)) =
     (redraw_events (py_int v) ++ Sleep 10 :: trace w)%list /\
   (get_aqi_color (inject_Z (py_int v)) = None <->
     (500 < py_int v \/ py_int v <= -1)%Z)).
Proof.
  intros Hv Hw.
  destruct (band_outside v Hv) as [Hcat Hcol].
  split; [exact Hcat |]. split; [exact Hcol |]. split.
  - eexists. split; [reflexivity |]. cbn -[get_aqi_category]. rewrite Hw, Hcat. reflexivity.
  - intros Hne. split.
    + rewrite display_iteration_eq. cbv zeta. rewrite Hw.
      apply Z.eqb_neq in Hne. rewrite Hne. reflexivity.
    + rewrite color_none_iff.
      change (inject_Z 500 < inject_Z (py_int v) \/ inject_Z (py_int v) <= inject_Z (-1)
              <-> (500 < py_int v \/ py_int v <= -1)%Z).
      rewrite <- Zlt_Qlt, <- Zle_Qle. reflexivity.
Qed.

Lemma aqi_out_of_range_witness :
  (500 < 1001 # 2 \/ 1001 # 2 <= -1) /\
  gauges (mkWorld (registry_with_aqi (1001 # 2)) (fun _ => []) []) AQI = 1001 # 2 /\
  get_aqi_category (1001 # 2) = None.
Proof.
  assert (H1 : 500 < 1001 # 2 \/ 1001 # 2 <= -1) by (left; vm_compute; reflexivity).
  split; [exact H1 |]. split; [reflexivity |].
  apply (aqi_out_of_range (1001 # 2) 0 (mkWorld (registry_with_aqi (1001 # 2)) (fun _ => []) []) H1).
  reflexivity.
Defined.

(** ** Push publishers *)

(** Every iteration of [post_to_influxdb] attempts one write and catches
    whatever the write raises: the loop never raises. *)
Lemma influx_loop_never_raises (DEBUG : bool) inputs : forall w,
  exists w', influx_loop DEBUG inputs w = (w', Ret tt) /\
    count_writes (trace w') = (List.length inputs + count_writes (trace w))%nat.
Proof.
  induction inputs as [| [r transport] rest IH]; intros w.
  - exists w. split; reflexivity.
  - simpl influx_loop. unfold bind at 1. unfold observe_registry. cbv beta iota.
    unfold bind at 1.
    destruct transport as [[] | e]; destruct DEBUG; cbn;
      match goal with
      | |- exists w', influx_loop _ rest ?w0 = _ /\ _ =>
          destruct (IH w0) as [w' [Hl Hc]]; exists w'; rewrite Hl; split;
          [reflexivity | rewrite Hc; simpl; lia]
      end.
Qed.

(** C2 (code bug): [post_to_luftdaten] reads the keys "pm25", "pm10", "pm1",
    "temperature", "pressure" and "humidity" of the snapshot, which has
    none of them ("PMS_P2", ... "BME280_temperature").  The [KeyError] is
    raised outside the [try], so the first iteration ends the publisher
    thread before any request is made, whatever the transport does. *)
Theorem luftdaten_loop_keyerror (DEBUG : bool) (r : gauge -> Q)
  (resp1 resp11 : reading bool) rest (w : world) :
  luftdaten_loop DEBUG ((r, resp1, resp11) :: rest) w =
    (mkWorld r (hists w) (Sleep 30 :: trace w), Exc (KeyError "pm25")).
Proof. reflexivity. Qed.

(** * Further properties of the code *)

(** ** Which gauges a routine may write *)

(** [touches_only G m]: running [m] changes no gauge outside [G] and makes
    no histogram observation. *)
Definition touches_only (G : gauge -> bool) {A} (m : Py A) : Prop :=
  forall w, (forall g, G g = false -> gauges (fst (m w)) g = gauges w g) /\
            hists (fst (m w)) = hists w.

Lemma touches_ret G {A} (a : A) : touches_only G (ret a).
Proof. intros w. split; reflexivity. Qed.

Lemma touches_raise G {A} e : touches_only G (@raise A e).
Proof. intros w. split; reflexivity. Qed.

Lemma touches_read G {A} (r : reading A) : touches_only G (read r).
Proof. destruct r; [apply touches_ret | apply touches_raise]. Qed.

Lemma touches_emit G ev : touches_only G (emit ev).
Proof. intros w. split; reflexivity. Qed.

Lemma gauge_eqb_eq g1 g2 : gauge_eqb g1 g2 = true -> g1 = g2.
Proof. destruct g1, g2; simpl; congruence. Qed.

Lemma touches_gauge_set G g0 v : G g0 = true -> touches_only G (gauge_set g0 v).
Proof.
  intros H0 w. split; [| reflexivity].
  intros g Hg. simpl. destruct (gauge_eqb g0 g) eqn:E; [| reflexivity].
  apply gauge_eqb_eq in E. subst. congruence.
Qed.

Lemma touches_bind G {A B} (m : Py A) (k : A -> Py B) :
  touches_only G m -> (forall a, touches_only G (k a)) -> touches_only G (bind m k).
Proof.
  intros Hm Hk w. unfold bind.
  destruct (Hm w) as [Hg Hh]. destruct (m w) as [w1 [a | e]]; simpl in *.
  - destruct (Hk a w1) as [Hg' Hh']. split.
    + intros g Hgf. rewrite Hg', Hg; auto.
    + congruence.
  - split; auto.
Qed.

Lemma touches_try G {A} (body : Py A) handled handler :
  touches_only G body -> (forall e, touches_only G (handler e)) ->
  touches_only G (try_except body handled handler).
Proof.
  intros Hb Hh w. unfold try_except.
  destruct (Hb w) as [Hg Hs]. destruct (body w) as [w1 [a | e]]; simpl in *.
  - split; auto.
  - destruct (handled e).
    + destruct (Hh e w1) as [Hg' Hs']. split.
      * intros g Hgf. rewrite Hg', Hg; auto.
      * congruence.
    + split; auto.
Qed.

Create HintDb touches.
#[local] Hint Resolve touches_ret touches_raise touches_read touches_emit : touches.

Ltac touches :=
  repeat first
    [ apply touches_bind; intros
    | apply touches_try; intros
    | apply touches_gauge_set; reflexivity
    | progress auto with touches ].

(** The gauges of the weather and light sensors. *)
Definition weather_gauge (g : gauge) : bool :=
  match g with
  | TEMPERATURE | PRESSURE | HUMIDITY | LUX | PROXIMITY => true
  | _ => false
  end.

Lemma get_temperature_touches factor raw c0 c1 :
  touches_only weather_gauge (get_temperature factor raw c0 c1).
Proof.
  unfold get_temperature, get_cpu_temperature. touches.
  destruct factor as [f |]; [destruct (Qeq_bool f 0) |]; touches.
Qed.

Lemma weather_routines_touch (c : cycle_input) :
  touches_only weather_gauge (get_pressure (in_pressure c)) /\
  touches_only weather_gauge (get_humidity (in_humidity c)) /\
  touches_only weather_gauge (get_light (in_lux c) (in_proximity c)).
Proof.
  unfold get_pressure, get_humidity, get_light, reset_i2c.
  split; [| split]; touches.
Qed.

(** With [--enviro true] an iteration of the main loop leaves the gas,
    particulate and AQI gauges and every histogram as they were, whatever
    the sensors do. *)
Theorem main_cycle_enviro_keeps_gas_and_pm to_aqi factor (c : cycle_input) (w : world) :
  (forall g, weather_gauge g = false ->
     gauges (fst (main_cycle to_aqi factor true c w)) g = gauges w g) /\
  hists (fst (main_cycle to_aqi factor true c w)) = hists w.
Proof.
  destruct (weather_routines_touch c) as [Hp [Hh Hl]].
  assert (H : touches_only weather_gauge (main_cycle to_aqi factor true c)).
  { unfold main_cycle. apply touches_bind; [apply get_temperature_touches | intros].
    apply touches_bind; [exact Hp | intros].
    apply touches_bind; [exact Hh | intros].
    apply touches_bind; [exact Hl | intros]. apply touches_ret. }
  apply H.
Qed.

(** ** Which exceptions a routine may raise *)

(** [raises_only P m]: every exception [m] raises satisfies [P]. *)
Definition raises_only (P : exn -> bool) {A} (m : Py A) : Prop :=
  forall w, match snd (m w) with Exc e => P e = true | Ret _ => True end.

Lemma raises_ret P {A} (a : A) : raises_only P (ret a).
Proof. intros w. exact I. Qed.

Lemma raises_emit P ev : raises_only P (emit ev).
Proof. intros w. exact I. Qed.

Lemma raises_gauge_set P g v : raises_only P (gauge_set g v).
Proof. intros w. exact I. Qed.

Lemma raises_hist_observe P h v : raises_only P (hist_observe h v).
Proof. intros w. exact I. Qed.




Create HintDb raises.
#[local] Hint Resolve raises_ret raises_emit raises_gauge_set raises_hist_observe : raises.





(** ** Sensor routines *)

(** [get_light] updates both LUX and PROXIMITY or neither: the gauges are
    set only after both reads succeed.  An [IOError] of either read leaves
    the registry as it was and makes one bus reset. *)
Theorem get_light_all_or_nothing (lux_r prox_r : reading Q) (w : world) :
  match lux_r, prox_r with
  | ROk lux, ROk prox =>
      snd (get_light lux_r prox_r w) = Ret tt /\
      gauges (fst (get_light lux_r prox_r w)) LUX = lux /\
      gauges (fst (get_light lux_r prox_r w)) PROXIMITY = prox
  | _, _ =>
      gauges (fst (get_light lux_r prox_r w)) = gauges w /\
      hists (fst (get_light lux_r prox_r w)) = hists w /\
      (reading_ok is_IOError lux_r && reading_ok is_IOError prox_r = true ->
       get_light lux_r prox_r w =
         (mkWorld (gauges w) (hists w)
            (reset_events "Could not get lux and proximity readings. Resetting i2c."
             ++ trace w), Ret tt))
  end.
Proof.
  destruct lux_r as [lux | e]; [destruct prox_r as [prox | e] |].
  - split; [reflexivity | split; reflexivity].
  - destruct e; cbn; repeat split; intros H; first [reflexivity | discriminate H].
  - destruct e; cbn; repeat split; intros H; first [reflexivity | discriminate H].
Qed.

(** [get_gas] sets each of the three gas gauges and observes the same value
    on its histogram; on an [IOError] it changes no gauge or histogram and
    makes one bus reset; any other exception is not caught. *)
Theorem get_gas_behaviour (r : reading gas_readings) (w : world) :
  match r with
  | ROk g =>
      let w' := fst (get_gas r w) in
      snd (get_gas r w) = Ret tt /\
      gauges w' OXIDISING = oxidising g /\ gauges w' REDUCING = reducing g /\
      gauges w' NH3 = nh3 g /\
      hists w' OXIDISING_HIST = oxidising g :: hists w OXIDISING_HIST /\
      hists w' REDUCING_HIST = reducing g :: hists w REDUCING_HIST /\
      hists w' NH3_HIST = nh3 g :: hists w NH3_HIST
  | RErr IOError =>
      get_gas r w =
        (mkWorld (gauges w) (hists w)
           (reset_events "Could not get gas readings. Resetting i2c." ++ trace w), Ret tt)
  | RErr e => get_gas r w = (w, Exc e)
  end.
Proof.
  destruct r as [g | []]; try reflexivity.
  simpl. repeat split.
Qed.

(** An [IOError] of the particulate sensor leaves the registry unchanged
    and makes one bus reset. *)
Theorem get_particulates_ioerror to_aqi (w : world) :
  get_particulates to_aqi (RErr IOError) w =
    (mkWorld (gauges w) (hists w)
       (reset_events "Could not get particulate matter readings. Resetting i2c." ++ trace w),
     Ret tt).
Proof. reflexivity. Qed.



(** ** AQI tables *)

Lemma band_lookup_none_same_keys {A B} (t1 : list ((Z * Z) * A)) (t2 : list ((Z * Z) * B)) v :
  map fst t1 = map fst t2 -> (band_lookup t1 v = None <-> band_lookup t2 v = None).
Proof.
  revert t2. induction t1 as [| [[lo hi] a] rest IH]; intros [| [[lo' hi'] b] rest'] H;
    simpl in H; try discriminate; [tauto |].
  injection H as -> -> Hrest. simpl.
  destruct (Qltb (inject_Z lo') v && Qle_bool v (inject_Z hi')).
  - split; discriminate.
  - apply IH, Hrest.
Qed.

(** The category and colour tables have the same bands in the same order:
    a value has a category exactly when it has a colour. *)
Theorem aqi_category_iff_color (v : Q) :
  get_aqi_category v = None <-> get_aqi_color v = None.
Proof. apply band_lookup_none_same_keys. reflexivity. Qed.

(** ** Snapshots after a particulate read *)

(** After a successful particulate read, a snapshot maps "PMS_P0" to PM1,
    "PMS_P1" to PM10 and "PMS_P2" to PM2.5 as read, "AQI_value" to the index
    of the clamped readings and "AQI_category" to that value's category. *)
Theorem snapshot_after_particulates to_aqi (pms : pms_data) (w : world) :
  let w' := fst (get_particulates to_aqi (ROk pms) w) in
  let aqi_value :=
    to_aqi [(POLLUTANT_PM25, if Qltb 500.4 (pm_2_5 pms) then 500.4 else pm_2_5 pms);
            (POLLUTANT_PM10, if Qltb 604 (pm_10 pms) then 604 else pm_10 pms)] in
  exists d, collect_all_data w' = (w', Ret d) /\
    getitem d "PMS_P0" w' = (w', Ret (PyFloat (pm_1 pms))) /\
    getitem d "PMS_P1" w' = (w', Ret (PyFloat (pm_10 pms))) /\
    getitem d "PMS_P2" w' = (w', Ret (PyFloat (pm_2_5 pms))) /\
    getitem d "AQI_value" w' = (w', Ret (PyFloat aqi_value)) /\
    getitem d "AQI_category" w' = (w', Ret (opt_str (get_aqi_category aqi_value))).
Proof.
  intros w' aqi_value. eexists. split; [reflexivity |].
  repeat split.
Qed.

(** ** Publisher iterations *)


(** The display loop reads only keys the snapshot has: it never raises,
    whatever the registry holds. *)
Theorem display_loop_never_raises (regs : list (gauge -> Q)) : forall previous_aqi w,
  exists w' p, display_loop previous_aqi regs w = (w', Ret p).
Proof.
  induction regs as [| r rest IH]; intros previous_aqi w.
  - eexists; eexists; reflexivity.
  - simpl display_loop. unfold bind at 1. unfold observe_registry. cbv beta iota.
    unfold bind at 1. rewrite display_iteration_eq. cbv zeta.
    destruct (Z.eqb _ _); apply IH.
Qed.

(** ** Parsing the command line and /proc/cpuinfo *)





Lemma split_aux_nosep sep s : forall cur,
  str_has sep s = false ->
  split_aux sep s cur = [string_of_list_ascii (rev cur ++ list_ascii_of_string s)].
Proof.
  induction s as [| c rest IH]; intros cur H; simpl in *.
  - rewrite app_nil_r. reflexivity.
  - apply orb_false_iff in H as [Hc Hr]. rewrite Hc, IH by exact Hr.
    simpl. rewrite <- app_assoc. reflexivity.
Qed.

Lemma split_aux_sep sep a b : forall cur,
  str_has sep a = false ->
  split_aux sep (a ++ String sep b) cur =
    string_of_list_ascii (rev cur ++ list_ascii_of_string a) :: split_aux sep b [].
Proof.
  induction a as [| c rest IH]; intros cur H; simpl in *.
  - rewrite Ascii.eqb_refl, app_nil_r. reflexivity.
  - apply orb_false_iff in H as [Hc Hr]. rewrite Hc, IH by exact Hr.
    simpl. rewrite <- app_assoc. reflexivity.
Qed.

Lemma substring_0_0 s : substring 0 0 s = "".
Proof. destruct s; reflexivity. Qed.

(** The first line starting with "Serial" decides [get_serial_number]:
    the lines before it are skipped, and with no such line the result is
    [None]. *)
Theorem serial_first_serial_line (pre rest : list string) (w : world) :
  (forall x, In x pre -> substring 0 6 x <> "Serial") ->
  serial_from_lines (pre ++ rest) w = serial_from_lines rest w /\
  serial_from_lines pre w = (w, Ret None).
Proof.
  intros H. induction pre as [| x pre' IH]; [split; reflexivity |].
  assert (Hx : String.eqb (substring 0 6 x) "Serial" = false)
    by (apply String.eqb_neq, H; left; reflexivity).
  simpl. rewrite Hx. apply IH. intros y Hy. apply H. right. exact Hy.
Qed.

Lemma serial_first_serial_line_witness :
  (forall x, In x cpuinfo_head -> substring 0 6 x <> "Serial") /\
  serial_from_lines (cpuinfo_head ++ [cpuinfo_serial_line]) init_world =
    serial_from_lines [cpuinfo_serial_line] init_world.
Proof.
  assert (H : forall x, In x cpuinfo_head -> substring 0 6 x <> "Serial")
    by (intros x [<- | [<- | []]]; vm_compute; discriminate).
  split; [exact H |].
  exact (proj1 (serial_first_serial_line _ [cpuinfo_serial_line] init_world H)).
Defined.

(** A "Serial" line yields the text between its first and second colon,
    stripped of surrounding white space; a "Serial" line without a colon
    raises [IndexError]. *)
Theorem serial_line_field (a v : string) (post : list string) (w : world) :
  str_has ":" a = false ->
  (str_has ":" v = false ->
   serial_from_lines (("Serial" ++ a ++ String ":" v) :: post) w = (w, Ret (Some (strip v)))) /\
  serial_from_lines (("Serial" ++ a) :: post) w = (w, Exc IndexError).
Proof.
  intros Ha. split.
  - intros Hv. simpl. rewrite substring_0_0. simpl. unfold str_split. simpl.
    rewrite split_aux_sep by exact Ha. rewrite split_aux_nosep by exact Hv.
    cbn [rev app]. rewrite (string_of_list_ascii_of_string v). reflexivity.
  - simpl. rewrite substring_0_0. simpl. unfold str_split. simpl.
    rewrite split_aux_nosep by exact Ha. reflexivity.
Qed.

Lemma serial_line_field_witness :
  str_has ":" (TAB ++ TAB) = false /\ str_has ":" (" 10000000abcdef01" ++ NL) = false /\
  serial_from_lines [cpuinfo_serial_line] init_world =
    (init_world, Ret (Some "10000000abcdef01")).
Proof.
  split; [reflexivity |]. split; [reflexivity |].
  exact (proj1 (serial_line_field (TAB ++ TAB) (" 10000000abcdef01" ++ NL) [] init_world
                  eq_refl) eq_refl).
Defined.
